(** * Identifier acceptance: a shallow embedding of example.c, otherfile.c
      and test-example.c

    The three C translation units are embedded as Rocq functions in a small
    process monad (output trace + abnormal termination).  The symbols that
    example.c resolves at link time ([database_id_exists],
    [function_somewhere_else]) are Section variables of the module that
    embeds example.c, so that the production definitions of otherfile.c and
    the stub of test-example.c can both be plugged in. *)

From Stdlib Require Import ZArith List String Ascii Bool Lia DecimalString.
From Stdlib Require DecimalPos.
Import ListNotations.
Local Open Scope string_scope.
Local Open Scope list_scope.
Local Open Scope Z_scope.

(** ** C integer types (ILP32/LP64: 32-bit [int], 64-bit [long]) *)

Module CInt.

Definition UINT_MAX : Z := 2 ^ 32 - 1.
Definition INT_MIN : Z := - 2 ^ 31.
Definition INT_MAX : Z := 2 ^ 31 - 1.
Definition LONG_MIN : Z := - 2 ^ 63.
Definition LONG_MAX : Z := 2 ^ 63 - 1.

Definition is_uint (z : Z) : Prop := 0 <= z <= UINT_MAX.
Definition is_int (z : Z) : Prop := INT_MIN <= z <= INT_MAX.

(** Conversion to [unsigned int]: reduction modulo 2^32. *)
Definition to_uint (z : Z) : Z := z mod 2 ^ 32.

(** Conversion to [int]: two's complement wrap-around. *)
Definition to_int (z : Z) : Z := (z + 2 ^ 31) mod 2 ^ 32 - 2 ^ 31.

(** Conversion of a [bool] to [int]. *)
Definition int_of_bool (b : bool) : Z := if b then 1 else 0.

End CInt.

(** ** The libc functions the program calls *)

Module Libc.

Definition newline : string := String (ascii_of_nat 10) EmptyString.

(** [isspace] in the C locale: space, \t, \n, \v, \f, \r. *)
Definition isspace (c : ascii) : bool :=
  let n := nat_of_ascii c in
  Nat.eqb n 32 || (Nat.leb 9 n && Nat.leb n 13).

Definition digit_value (c : ascii) : option Z :=
  let n := nat_of_ascii c in
  if Nat.leb 48 n && Nat.leb n 57 then Some (Z.of_nat n - 48) else None.

Fixpoint skip_spaces (s : string) : string :=
  match s with
  | String c r => if isspace c then skip_spaces r else s
  | EmptyString => s
  end.

(** The longest prefix of decimal digits, read as a number. *)
Fixpoint read_digits (acc : Z) (s : string) : Z :=
  match s with
  | String c r =>
      match digit_value c with
      | Some d => read_digits (10 * acc + d) r
      | None => acc
      end
  | EmptyString => acc
  end.

Definition clamp (lo hi z : Z) : Z := Z.max lo (Z.min hi z).

(** [strtol (s, NULL, 10)]: leading white space, an optional sign, decimal
    digits; saturates at the bounds of [long]; 0 when there is no digit. *)
Definition strtol (s : string) : Z :=
  match skip_spaces s with
  | String "-" r => clamp CInt.LONG_MIN CInt.LONG_MAX (- read_digits 0 r)
  | String "+" r => clamp CInt.LONG_MIN CInt.LONG_MAX (read_digits 0 r)
  | r => clamp CInt.LONG_MIN CInt.LONG_MAX (read_digits 0 r)
  end.

(** [atoi (s)] is [(int) strtol (s, NULL, 10)]. *)
Definition atoi (s : string) : Z := CInt.to_int (strtol s).

(** [strrchr (s, c)] for [c] other than NUL: the suffix of [s] that starts
    at the last occurrence of [c], if any. *)
Fixpoint strrchr (s : string) (c : ascii) : option string :=
  match s with
  | EmptyString => None
  | String a r =>
      match strrchr r c with
      | Some p => Some p
      | None => if Ascii.eqb a c then Some s else None
      end
  end.

(** The GNU [basename] of <string.h> (_GNU_SOURCE): what follows the last
    slash, or the whole string when it has none. *)
Definition basename (filename : string) : string :=
  match strrchr filename "/" with
  | Some (String _ p) => p
  | _ => filename
  end.

(** The [%d] conversion of printf. *)
Definition format_d (z : Z) : string := NilZero.string_of_int (Z.to_int z).

End Libc.

(** ** Processes: an output trace and abnormal termination *)

(** What a process writes, in the order it writes it. *)
Inductive event : Type :=
| Stdout (text : string)
| Stderr (text : string).

Definition trace : Type := list event.

(** How a computation ends: it returns to its caller, the process is killed
    by [abort ()], or the behaviour is undefined. *)
Inductive outcome (A : Type) : Type :=
| Returned (a : A)
| Aborted
| Undefined.

Arguments Returned {A} a.
Arguments Aborted {A}.
Arguments Undefined {A}.

(** A computation maps the trace so far to the trace after it and its
    outcome. *)
Definition M (A : Type) : Type := trace -> trace * outcome A.

Definition ret {A} (a : A) : M A := fun t => (t, Returned a).

Definition bind {A B} (m : M A) (k : A -> M B) : M B :=
  fun t =>
    match m t with
    | (t', Returned a) => k a t'
    | (t', Aborted) => (t', Aborted)
    | (t', Undefined) => (t', Undefined)
    end.

Declare Scope proc_scope.
Delimit Scope proc_scope with proc.
Notation "x <- m ;; k" := (bind m (fun x => k))
  (at level 100, m at next level, right associativity) : proc_scope.
Notation "m ;; k" := (bind m (fun _ => k))
  (at level 100, right associativity) : proc_scope.
Local Open Scope proc_scope.

Definition emit (e : event) : M unit := fun t => (t ++ [e], Returned tt).

Definition printf (text : string) : M unit := emit (Stdout text).
Definition fprintf_stderr (text : string) : M unit := emit (Stderr text).
(** [void abort (void)]: never returns. *)
Definition abort : M unit := fun t => (t, Aborted).
Definition undefined_behaviour {A} : M A := fun t => (t, Undefined).

(** [assert (e)] of <assert.h> without NDEBUG: a failed assertion writes a
    diagnostic naming the expression to stderr and aborts. *)
Definition assert (expr : string) (e : bool) : M unit :=
  if e then ret tt
  else (fprintf_stderr ("Assertion `" ++ expr ++ "' failed." ++ Libc.newline)%string ;;
        abort).

(** The trace and the outcome of a run from the start of the process. *)
Definition run {A} (m : M A) : trace * outcome A := m [].

(** The line every function that must not run prints first:
    [printf ("..... %s wasn't supposed to be called\n", __func__)]. *)
Definition not_supposed_to_be_called (func : string) : string :=
  ("..... " ++ func ++ " wasn't supposed to be called" ++ Libc.newline)%string.

(** ** otherfile.c: the production collaborators *)

Module OtherfileC.

Definition function_somewhere_else (argument : Z) : M unit :=
  printf (not_supposed_to_be_called "function_somewhere_else") ;;
  abort.

Definition database_id_exists (id : Z) : M bool :=
  printf (not_supposed_to_be_called "database_id_exists") ;;
  abort ;;
  ret true.

End OtherfileC.

(** ** example.c *)

Module ExampleC.

Section LinkTime.

(** The declarations of otherfile.h, resolved when the unit is linked or
    included. *)
Variable database_id_exists : Z -> M bool.
Variable function_somewhere_else : Z -> M unit.

(** [id] is an [unsigned int]. *)
Definition is_acceptable_id (id : Z) : M bool :=
  e <- database_id_exists id ;;
  if e then ret false
  else ret ((1000 <? id) && (id <? 10000)).

Definition some_function (argument : Z) : M unit :=
  printf (not_supposed_to_be_called "some_function") ;;
  function_somewhere_else argument.

(** [argc] is the length of [argv]; with [argc = 0], [argv[0]] is the null
    pointer and [basename] dereferences it.  The value returned is the exit
    status of the process. *)
Definition main (argv : list string) : M Z :=
  let argc := Z.of_nat (List.length argv) in
  if argc <? 2 then
    match argv with
    | [] => undefined_behaviour
    | argv0 :: _ =>
        fprintf_stderr ("Usage: " ++ Libc.basename argv0 ++ " <id>" ++ Libc.newline)%string ;;
        ret 1
    end
  else
    let id := Libc.atoi (nth 1 argv "") in
    r <- is_acceptable_id (CInt.to_uint id) ;;
    let is_acceptable := CInt.int_of_bool r in
    printf ("ID is acceptable: " ++ Libc.format_d is_acceptable ++ Libc.newline)%string ;;
    ret 0.

End LinkTime.

End ExampleC.

(** The executable built from example.c and otherfile.c. *)
Definition example : list string -> M Z :=
  ExampleC.main OtherfileC.database_id_exists.

(** ** test-example.c: includes example.c and defines the lookup itself *)

Module TestExampleC.

Definition database_id_exists (id : Z) : M bool := ret false.

Definition is_acceptable_id : Z -> M bool :=
  ExampleC.is_acceptable_id database_id_exists.

Definition test_id : M unit :=
  r <- is_acceptable_id 10 ;; assert "!is_acceptable_id(10)" (negb r) ;;
  r <- is_acceptable_id 100 ;; assert "!is_acceptable_id(100)" (negb r) ;;
  r <- is_acceptable_id 1000 ;; assert "!is_acceptable_id(1000)" (negb r) ;;
  r <- is_acceptable_id 5000 ;; assert "is_acceptable_id(5000)" r ;;
  r <- is_acceptable_id 3000 ;; assert "is_acceptable_id(3000)" r ;;
  ret tt.

Definition main (argv : list string) : M Z :=
  test_id ;;
  ret 0.

End TestExampleC.

(** ** Vocabulary of the statements *)

(** A lookup that is a function of the identifier alone. *)
Definition pure_lookup (f : Z -> bool) : Z -> M bool := fun id => ret (f id).

(** The two lines [ExampleC.main] can write. *)
Definition usage (argv0 : string) : string :=
  ("Usage: " ++ Libc.basename argv0 ++ " <id>" ++ Libc.newline)%string.

Definition verdict (digit : string) : string :=
  ("ID is acceptable: " ++ digit ++ Libc.newline)%string.

(** The trace holds the line that [func] prints when it is entered. *)
Definition reports_call (func : string) (t : trace) : Prop :=
  In (Stdout (not_supposed_to_be_called func)) t.

(** The string begins with a decimal digit. *)
Definition starts_with_digit (s : string) : bool :=
  match s with
  | String c _ =>
      match Libc.digit_value c with Some _ => true | None => false end
  | EmptyString => false
  end.

(** After its leading white space and one optional sign, the string begins
    with a decimal digit: there is a number for [strtol] to read. *)
Definition has_number (s : string) : bool :=
  match Libc.skip_spaces s with
  | String "-" r => starts_with_digit r
  | String "+" r => starts_with_digit r
  | r => starts_with_digit r
  end.

(** * Properties *)

(** ** The process monad *)

Lemma bind_Returned {A B} (m : M A) (k : A -> M B) t t' a :
  m t = (t', Returned a) -> bind m k t = k a t'.
Proof. intros H. unfold bind. rewrite H. reflexivity. Qed.

Lemma bind_Aborted {A B} (m : M A) (k : A -> M B) t t' :
  m t = (t', Aborted) -> bind m k t = (t', Aborted).
Proof. intros H. unfold bind. rewrite H. reflexivity. Qed.

Lemma bind_Undefined {A B} (m : M A) (k : A -> M B) t t' :
  m t = (t', Undefined) -> bind m k t = (t', Undefined).
Proof. intros H. unfold bind. rewrite H. reflexivity. Qed.

(** A bind that returns went through a first part that returned. *)
Lemma bind_Returned_inv {A B} (m : M A) (k : A -> M B) t t' b :
  bind m k t = (t', Returned b) ->
  exists t1 a, m t = (t1, Returned a) /\ k a t1 = (t', Returned b).
Proof.
  unfold bind. destruct (m t) as [t1 [a | | ]]; intros H.
  - exists t1, a. split; [reflexivity | exact H].
  - discriminate H.
  - discriminate H.
Qed.

(** ** C integers and libc *)

Lemma to_int_is_int z : CInt.is_int (CInt.to_int z).
Proof.
  unfold CInt.is_int, CInt.to_int, CInt.INT_MIN, CInt.INT_MAX.
  pose proof (Z.mod_pos_bound (z + 2 ^ 31) (2 ^ 32)). lia.
Qed.

Lemma atoi_is_int s : CInt.is_int (Libc.atoi s).
Proof. apply to_int_is_int. Qed.

Lemma to_uint_is_uint z : CInt.is_uint (CInt.to_uint z).
Proof.
  unfold CInt.is_uint, CInt.to_uint, CInt.UINT_MAX.
  pose proof (Z.mod_pos_bound z (2 ^ 32)). lia.
Qed.

(** A negative [int] converts to itself plus 2^32. *)
Lemma to_uint_negative z :
  CInt.is_int z -> z < 0 -> CInt.to_uint z = z + 2 ^ 32.
Proof.
  unfold CInt.is_int, CInt.INT_MIN, CInt.to_uint. intros [Hlo _] Hneg.
  symmetry. apply (Z.mod_unique z (2 ^ 32) (-1)); lia.
Qed.

Lemma to_uint_of_uint z : CInt.is_uint z -> CInt.to_uint z = z.
Proof.
  unfold CInt.is_uint, CInt.UINT_MAX, CInt.to_uint. intros H.
  apply Z.mod_small. lia.
Qed.

(** ** The acceptance predicate *)

Section Acceptance.

Variable database_id_exists : Z -> M bool.

(** When the lookup returns [e], the predicate returns in the state the
    lookup left, with the value of the range test unless [e] holds. *)
Lemma is_acceptable_id_Returned id t t' e :
  database_id_exists id t = (t', Returned e) ->
  ExampleC.is_acceptable_id database_id_exists id t
  = (t', Returned (if e then false else (1000 <? id) && (id <? 10000))).
Proof.
  intros H. unfold ExampleC.is_acceptable_id.
  rewrite (bind_Returned _ _ _ _ _ H). destruct e; reflexivity.
Qed.

(** The predicate writes nothing of its own. *)
Lemma is_acceptable_id_trace id t :
  fst (ExampleC.is_acceptable_id database_id_exists id t) = fst (database_id_exists id t).
Proof.
  unfold ExampleC.is_acceptable_id, bind.
  destruct (database_id_exists id t) as [t' [[ | ] | | ]]; reflexivity.
Qed.

(** A call that returns has had its lookup return. *)
Lemma is_acceptable_id_Returned_inv id t t' r :
  ExampleC.is_acceptable_id database_id_exists id t = (t', Returned r) ->
  exists e, database_id_exists id t = (t', Returned e).
Proof.
  unfold ExampleC.is_acceptable_id. intros H.
  apply bind_Returned_inv in H. destruct H as (t1 & e & Hdb & Hk).
  exists e. destruct e; unfold ret in Hk; inversion Hk; subst; exact Hdb.
Qed.

(** C1: for every identifier (so for every [unsigned int]), when the lookup
    [database_id_exists] returns false for it, [is_acceptable_id] returns,
    and what it returns is true if and only if the identifier is strictly
    greater than 1000 and strictly less than 10000. *)
Theorem is_acceptable_id_iff_in_range id t t' :
  database_id_exists id t = (t', Returned false) ->
  exists r, ExampleC.is_acceptable_id database_id_exists id t = (t', Returned r)
            /\ (r = true <-> 1000 < id < 10000).
Proof.
  intros H. eexists. split.
  - apply is_acceptable_id_Returned. exact H.
  - cbv beta iota. rewrite andb_true_iff, !Z.ltb_lt. tauto.
Qed.

(** C2: when the lookup reports true for an identifier, [is_acceptable_id]
    returns false, whatever the identifier (no condition on its range); and
    the lookup is run first on every call: the call leaves the trace the
    lookup leaves, and it returns only if the lookup returned. *)
Theorem is_acceptable_id_existing_rejected id t :
  (forall t', database_id_exists id t = (t', Returned true) ->
              ExampleC.is_acceptable_id database_id_exists id t = (t', Returned false))
  /\ fst (ExampleC.is_acceptable_id database_id_exists id t) = fst (database_id_exists id t)
  /\ (forall t' r, ExampleC.is_acceptable_id database_id_exists id t = (t', Returned r) ->
                   exists e, database_id_exists id t = (t', Returned e)).
Proof.
  split; [ | split].
  - intros t' H. apply (is_acceptable_id_Returned _ _ _ _ H).
  - apply is_acceptable_id_trace.
  - apply is_acceptable_id_Returned_inv.
Qed.

(** C3: for every identifier with id <= 1000 or id >= 10000,
    [is_acceptable_id] returns false, whichever boolean the lookup returns
    for it. *)
Theorem is_acceptable_id_out_of_range id t t' e :
  id <= 1000 \/ 10000 <= id ->
  database_id_exists id t = (t', Returned e) ->
  ExampleC.is_acceptable_id database_id_exists id t = (t', Returned false).
Proof.
  intros Hrange H. rewrite (is_acceptable_id_Returned _ _ _ _ H).
  destruct e; [reflexivity | ].
  destruct (Z.ltb_spec 1000 id), (Z.ltb_spec id 10000); simpl;
    try reflexivity; lia.
Qed.

End Acceptance.

(** C9: for a fixed existence function, [is_acceptable_id] is a function of
    the identifier: there is one boolean that every call with that
    identifier returns, in whatever state the call is made, and every call
    leaves the state as it found it. *)
Theorem is_acceptable_id_pure (f : Z -> bool) (id : Z) :
  exists r, forall t,
    ExampleC.is_acceptable_id (pure_lookup f) id t = (t, Returned r).
Proof.
  eexists. intros t. apply is_acceptable_id_Returned. reflexivity.
Qed.

(** C4: with the lookup of test-example.c, which returns false for every
    identifier, [is_acceptable_id] returns false for 10, 100, 1000 and
    10000 and true for 3000, 5000 and 9999. *)
Theorem test_is_acceptable_id_literals t :
  TestExampleC.is_acceptable_id 10 t = (t, Returned false)
  /\ TestExampleC.is_acceptable_id 100 t = (t, Returned false)
  /\ TestExampleC.is_acceptable_id 1000 t = (t, Returned false)
  /\ TestExampleC.is_acceptable_id 10000 t = (t, Returned false)
  /\ TestExampleC.is_acceptable_id 3000 t = (t, Returned true)
  /\ TestExampleC.is_acceptable_id 5000 t = (t, Returned true)
  /\ TestExampleC.is_acceptable_id 9999 t = (t, Returned true).
Proof. repeat split. Qed.

(** Every assertion of [test_id] holds: the test program writes nothing and
    exits with status 0. *)
Lemma test_main_passes argv : run (TestExampleC.main argv) = ([], Returned 0).
Proof. reflexivity. Qed.

(** ** The production collaborators *)

(** C7: each of the two functions of otherfile.c, whatever its argument and
    whenever it is called, appends exactly one line to standard output and
    then aborts; it never returns a value. *)
Theorem production_collaborators_abort (x : Z) (t : trace) :
  OtherfileC.database_id_exists x t
  = (t ++ [Stdout (not_supposed_to_be_called "database_id_exists")], Aborted)
  /\ OtherfileC.function_somewhere_else x t
     = (t ++ [Stdout (not_supposed_to_be_called "function_somewhere_else")],
        Aborted)
  /\ (forall v, snd (OtherfileC.database_id_exists x t) <> Returned v)
  /\ (forall v, snd (OtherfileC.function_somewhere_else x t) <> Returned v).
Proof. repeat split; intros v; discriminate. Qed.

(** ** The entry point *)

Section EntryPoint.

Variable database_id_exists : Z -> M bool.

(** Without an identifier: the usage line on stderr and status 1. *)
Lemma main_usage argv0 t :
  ExampleC.main database_id_exists [argv0] t = (t ++ [Stderr (usage argv0)], Returned 1).
Proof. reflexivity. Qed.

(** With an empty [argv] the program has no defined behaviour: it reads
    through the null [argv[0]]. *)
Lemma main_empty_argv t :
  ExampleC.main database_id_exists [] t = (t, Undefined).
Proof. reflexivity. Qed.

(** With an identifier, once the lookup has returned [e] for it. *)
Lemma main_verdict argv0 arg rest t t' e :
  database_id_exists (CInt.to_uint (Libc.atoi arg)) t = (t', Returned e) ->
  ExampleC.main database_id_exists (argv0 :: arg :: rest) t
  = (t' ++ [Stdout (verdict
                      (if (if e then false
                           else (1000 <? CInt.to_uint (Libc.atoi arg))
                                && (CInt.to_uint (Libc.atoi arg) <? 10000))
                       then "1" else "0"))],
     Returned 0).
Proof.
  intros H. unfold ExampleC.main.
  destruct (Z.ltb_spec (Z.of_nat (List.length (argv0 :: arg :: rest))) 2)
    as [Hlt | _]; [simpl List.length in Hlt; lia | ].
  cbv zeta. change (nth 1 (argv0 :: arg :: rest) "") with arg.
  rewrite (bind_Returned _ _ _ _ _ (is_acceptable_id_Returned _ _ _ _ _ H)).
  destruct (if e then false else _); reflexivity.
Qed.

End EntryPoint.

(** [argc < 2] fails as soon as [argv] has two elements. *)
Lemma argc_two_or_more (argv0 arg : string) (rest : list string) :
  (Z.of_nat (List.length (argv0 :: arg :: rest)) <? 2) = false.
Proof. apply Z.ltb_ge. simpl List.length. lia. Qed.

(** The executable built with otherfile.c aborts in the lookup as soon as
    it is given an argument. *)
Lemma example_with_argument argv0 arg rest t :
  example (argv0 :: arg :: rest) t
  = (t ++ [Stdout (not_supposed_to_be_called "database_id_exists")], Aborted).
Proof.
  unfold example, ExampleC.main. rewrite argc_two_or_more.
  apply bind_Aborted. unfold ExampleC.is_acceptable_id.
  apply bind_Aborted. reflexivity.
Qed.

(** C5, as amended: with only the program name in [argv], the entry point
    writes the usage line, which names the program, to stderr and exits
    with status 1; with at least one argument, and a lookup that returns for
    the identifier parsed from it, the entry point writes the result of
    [is_acceptable_id] for that identifier to stdout, as
    "ID is acceptable: 1" when it returned true and "ID is acceptable: 0"
    when it returned false, and exits with status 0; the executable built
    with otherfile.c, whose lookup aborts, is killed by [abort] whenever it
    is given an argument. *)
Theorem main_exit_status db argv0 t :
  ExampleC.main db [argv0] t
  = (t ++ [Stderr ("Usage: " ++ Libc.basename argv0 ++ " <id>"
                   ++ Libc.newline)%string],
     Returned 1)
  /\ (forall arg rest t' e,
        db (CInt.to_uint (Libc.atoi arg)) t = (t', Returned e) ->
        exists r,
          ExampleC.is_acceptable_id db (CInt.to_uint (Libc.atoi arg)) t
          = (t', Returned r)
          /\ ExampleC.main db (argv0 :: arg :: rest) t
             = (t' ++ [Stdout ("ID is acceptable: "
                               ++ (if r then "1" else "0")
                               ++ Libc.newline)%string],
                Returned 0))
  /\ (forall arg rest,
        example (argv0 :: arg :: rest) t
        = (t ++ [Stdout (not_supposed_to_be_called "database_id_exists")],
           Aborted)).
Proof.
  split; [reflexivity | split].
  - intros arg rest t' e H. eexists. split.
    + apply (is_acceptable_id_Returned db _ t t' e H).
    + apply (main_verdict db argv0 arg rest t t' e H).
  - intros arg rest. apply example_with_argument.
Qed.

(** C5 as stated fails on the executable built with otherfile.c: given the
    argument "3000" it aborts in the lookup, and does not exit with
    status 0. *)
Lemma example_3000_aborts :
  run (example ["example"; "3000"])
  = ([Stdout (not_supposed_to_be_called "database_id_exists")], Aborted)
  /\ ~ (exists t, run (example ["example"; "3000"]) = (t, Returned 0)).
Proof.
  split; [reflexivity | ]. intros [t H]. discriminate H.
Qed.

(** C6: with a lookup that returns false for 3000, the entry point run with
    the single argument "3000" writes "ID is acceptable: 1" to stdout and
    exits with status 0; run with no argument it writes the usage line to
    stderr and exits with status 1. *)
Theorem main_cli_scenario db argv0 t t' :
  db 3000 t = (t', Returned false) ->
  ExampleC.main db [argv0; "3000"] t
  = (t' ++ [Stdout ("ID is acceptable: 1" ++ Libc.newline)%string],
     Returned 0)
  /\ ExampleC.main db [argv0] t
     = (t ++ [Stderr ("Usage: " ++ Libc.basename argv0 ++ " <id>"
                      ++ Libc.newline)%string],
        Returned 1).
Proof.
  intros H. split; [ | reflexivity].
  apply (main_verdict db argv0 "3000" [] t t' false H).
Qed.

(** C10: when the argument parses to a negative [int], the identifier the
    lookup and the predicate receive is that value modulo 2^32, it is at
    least 2^31, so outside (1000, 10000), and with a lookup that returns
    false for it the entry point writes "ID is acceptable: 0" and exits
    with status 0. *)
Theorem main_negative_argument db argv0 arg rest t t' :
  Libc.atoi arg < 0 ->
  db (Libc.atoi arg mod 2 ^ 32) t = (t', Returned false) ->
  2 ^ 31 <= Libc.atoi arg mod 2 ^ 32 <= CInt.UINT_MAX
  /\ ~ (1000 < Libc.atoi arg mod 2 ^ 32 < 10000)
  /\ ExampleC.is_acceptable_id db (Libc.atoi arg mod 2 ^ 32) t
     = (t', Returned false)
  /\ ExampleC.main db (argv0 :: arg :: rest) t
     = (t' ++ [Stdout ("ID is acceptable: 0" ++ Libc.newline)%string],
        Returned 0).
Proof.
  intros Hneg Hdb.
  pose proof (to_uint_negative _ (atoi_is_int arg) Hneg) as Hu.
  pose proof (atoi_is_int arg) as [Hlo _].
  unfold CInt.to_uint in Hu. unfold CInt.INT_MIN in Hlo.
  assert (Hge : 2 ^ 31 <= Libc.atoi arg mod 2 ^ 32 <= CInt.UINT_MAX)
    by (unfold CInt.UINT_MAX; lia).
  split; [exact Hge | ]. split; [lia | ].
  assert (Hr : ExampleC.is_acceptable_id db (Libc.atoi arg mod 2 ^ 32) t
               = (t', Returned false)).
  { rewrite (is_acceptable_id_Returned db _ t t' false Hdb).
    destruct (Z.ltb_spec (Libc.atoi arg mod 2 ^ 32) 10000); [lia | ].
    rewrite andb_false_r. reflexivity. }
  split; [exact Hr | ].
  unfold ExampleC.main. rewrite argc_two_or_more. cbv zeta.
  change (nth 1 (argv0 :: arg :: rest) "") with arg.
  unfold CInt.to_uint. rewrite (bind_Returned _ _ _ _ _ Hr). reflexivity.
Qed.

(** ** Functions that never run *)

(** What the command-line executable can leave in its trace. *)
Lemma example_trace_cases (argv : list string) :
  fst (run (example argv)) = []
  \/ (exists argv0, fst (run (example argv)) = [Stderr (usage argv0)])
  \/ fst (run (example argv))
     = [Stdout (not_supposed_to_be_called "database_id_exists")].
Proof.
  destruct argv as [ | argv0 [ | arg rest]].
  - left. reflexivity.
  - right. left. exists argv0. reflexivity.
  - right. right. unfold run. rewrite example_with_argument. reflexivity.
Qed.

Lemma example_silent_about (func : string) (argv : list string) :
  not_supposed_to_be_called func
  <> not_supposed_to_be_called "database_id_exists" ->
  ~ reports_call func (fst (run (example argv))).
Proof.
  intros Hne Hin. unfold reports_call in Hin.
  destruct (example_trace_cases argv) as [H | [[argv0 H] | H]];
    rewrite H in Hin.
  - exact Hin.
  - destruct Hin as [Hin | []]. discriminate Hin.
  - destruct Hin as [Hin | []]. congruence.
Qed.

(** What the entry point leaves in the trace, for any lookup: nothing, the
    usage line, what the lookup left, or that followed by one verdict. *)
Lemma main_trace_cases db argv t :
  fst (ExampleC.main db argv t) = t
  \/ (exists argv0, fst (ExampleC.main db argv t) = t ++ [Stderr (usage argv0)])
  \/ (exists id, fst (ExampleC.main db argv t) = fst (db id t))
  \/ (exists id digit,
        fst (ExampleC.main db argv t)
        = fst (db id t) ++ [Stdout (verdict digit)]).
Proof.
  destruct argv as [ | argv0 [ | arg rest]].
  - left. reflexivity.
  - right. left. exists argv0. reflexivity.
  - right. right.
    destruct (db (CInt.to_uint (Libc.atoi arg)) t) as [t1 [e | | ]] eqn:Hdb.
    + right. eexists (CInt.to_uint (Libc.atoi arg)), _.
      rewrite (main_verdict db argv0 arg rest t t1 e Hdb), Hdb. reflexivity.
    + left. exists (CInt.to_uint (Libc.atoi arg)). rewrite Hdb.
      unfold ExampleC.main. rewrite argc_two_or_more. cbv zeta.
      change (nth 1 (argv0 :: arg :: rest) "") with arg.
      erewrite bind_Aborted; [reflexivity | ].
      apply bind_Aborted. exact Hdb.
    + left. exists (CInt.to_uint (Libc.atoi arg)). rewrite Hdb.
      unfold ExampleC.main. rewrite argc_two_or_more. cbv zeta.
      change (nth 1 (argv0 :: arg :: rest) "") with arg.
      erewrite bind_Undefined; [reflexivity | ].
      apply bind_Undefined. exact Hdb.
Qed.

(** The entry point adds no line of a function that must not run: a trace
    with such a line after [main] had it before, or got it from the
    lookup. *)
Lemma main_adds_no_report db func argv t :
  ~ reports_call func t ->
  (forall id, ~ reports_call func (fst (db id t))) ->
  ~ reports_call func (fst (ExampleC.main db argv t)).
Proof.
  intros Ht Hdb Hin. unfold reports_call in *.
  destruct (main_trace_cases db argv t)
    as [H | [[argv0 H] | [[id H] | (id & digit & H)]]]; rewrite H in Hin.
  - exact (Ht Hin).
  - apply in_app_or in Hin. destruct Hin as [Hin | [Hin | []]].
    + exact (Ht Hin).
    + discriminate Hin.
  - exact (Hdb id Hin).
  - apply in_app_or in Hin. destruct Hin as [Hin | [Hin | []]].
    + exact (Hdb id Hin).
    + unfold verdict, not_supposed_to_be_called in Hin. simpl in Hin.
      discriminate Hin.
Qed.

(** C8: [some_function] and [function_somewhere_else] print a line of their
    own as soon as they are entered (with the collaborators of otherfile.c,
    each call leaves its line in the trace); no run of the command-line
    executable, whatever its arguments, and no run of the test program has
    either line in its trace; and with any lookup whatever, returning or
    not, the entry point itself adds neither line: a run that starts
    without the line, with a lookup that does not write it, ends without
    it, also on the flow after the predicate has returned. *)
Theorem unused_functions_never_run (argv : list string) :
  (forall x t,
      reports_call "function_somewhere_else"
        (fst (OtherfileC.function_somewhere_else x t)))
  /\ (forall x t,
        reports_call "some_function"
          (fst (ExampleC.some_function OtherfileC.function_somewhere_else x t)))
  /\ ~ reports_call "some_function" (fst (run (example argv)))
  /\ ~ reports_call "function_somewhere_else" (fst (run (example argv)))
  /\ ~ reports_call "some_function" (fst (run (TestExampleC.main argv)))
  /\ ~ reports_call "function_somewhere_else"
         (fst (run (TestExampleC.main argv)))
  /\ (forall db t,
        ~ reports_call "some_function" t ->
        (forall id, ~ reports_call "some_function" (fst (db id t))) ->
        ~ reports_call "some_function" (fst (ExampleC.main db argv t)))
  /\ (forall db t,
        ~ reports_call "function_somewhere_else" t ->
        (forall id,
            ~ reports_call "function_somewhere_else" (fst (db id t))) ->
        ~ reports_call "function_somewhere_else"
            (fst (ExampleC.main db argv t))).
Proof.
  split; [ | split; [ | split; [ | split; [ | split; [ | split; [ | split]]]]]].
  - intros x t. unfold reports_call. simpl. apply in_or_app.
    right. left. reflexivity.
  - intros x t. unfold reports_call. simpl. apply in_or_app. left.
    apply in_or_app. right. left. reflexivity.
  - apply example_silent_about. discriminate.
  - apply example_silent_about. discriminate.
  - intros [].
  - intros [].
  - intros db t. apply main_adds_no_report.
  - intros db t. apply main_adds_no_report.
Qed.

(** ** Instances on concrete runs *)

Lemma is_acceptable_id_iff_in_range_5000 :
  TestExampleC.database_id_exists 5000 [] = ([], Returned false)
  /\ exists r,
       ExampleC.is_acceptable_id TestExampleC.database_id_exists 5000 []
       = ([], Returned r)
       /\ (r = true <-> 1000 < 5000 < 10000).
Proof.
  split; [reflexivity | ].
  apply (is_acceptable_id_iff_in_range
           TestExampleC.database_id_exists 5000 [] []).
  reflexivity.
Defined.

Lemma is_acceptable_id_existing_rejected_5000 :
  pure_lookup (fun _ => true) 5000 [] = ([], Returned true)
  /\ ExampleC.is_acceptable_id (pure_lookup (fun _ => true)) 5000 []
     = ([], Returned false).
Proof.
  split; [reflexivity | ].
  apply (proj1 (is_acceptable_id_existing_rejected
                  (pure_lookup (fun _ => true)) 5000 [])).
  reflexivity.
Defined.

Lemma is_acceptable_id_out_of_range_10000 :
  (10000 <= 1000 \/ 10000 <= 10000)
  /\ pure_lookup (fun _ => false) 10000 [] = ([], Returned false)
  /\ ExampleC.is_acceptable_id (pure_lookup (fun _ => false)) 10000 []
     = ([], Returned false).
Proof.
  assert (H : 10000 <= 1000 \/ 10000 <= 10000) by (right; lia).
  split; [exact H | ]. split; [reflexivity | ].
  apply (is_acceptable_id_out_of_range
           (pure_lookup (fun _ => false)) 10000 [] [] false H).
  reflexivity.
Defined.

Lemma main_exit_status_5 :
  TestExampleC.database_id_exists (CInt.to_uint (Libc.atoi "5")) []
  = ([], Returned false)
  /\ exists r,
       ExampleC.is_acceptable_id TestExampleC.database_id_exists
         (CInt.to_uint (Libc.atoi "5")) []
       = ([], Returned r)
       /\ ExampleC.main TestExampleC.database_id_exists ["example"; "5"] []
          = ([] ++ [Stdout ("ID is acceptable: " ++ (if r then "1" else "0")
                            ++ Libc.newline)%string],
             Returned 0).
Proof.
  split; [reflexivity | ].
  apply (proj1 (proj2 (main_exit_status
                         TestExampleC.database_id_exists "example" []))
           "5" [] [] false).
  reflexivity.
Defined.

Lemma unused_functions_never_run_stub :
  ~ reports_call "some_function" []
  /\ (forall id,
        ~ reports_call "some_function"
            (fst (TestExampleC.database_id_exists id [])))
  /\ fst (ExampleC.main TestExampleC.database_id_exists
            ["example"; "3000"] [])
     = [Stdout (verdict "1")]
  /\ ~ reports_call "some_function"
         (fst (ExampleC.main TestExampleC.database_id_exists
                 ["example"; "3000"] [])).
Proof.
  assert (H0 : ~ reports_call "some_function" []) by (intros []).
  assert (Hdb : forall id,
             ~ reports_call "some_function"
                 (fst (TestExampleC.database_id_exists id [])))
    by (intros id []).
  split; [exact H0 | ]. split; [exact Hdb | ]. split; [reflexivity | ].
  apply (proj1 (proj2 (proj2 (proj2 (proj2 (proj2 (proj2
           (unused_functions_never_run ["example"; "3000"])))))))
           TestExampleC.database_id_exists [] H0 Hdb).
Defined.

Lemma main_cli_scenario_stub :
  TestExampleC.database_id_exists 3000 [] = ([], Returned false)
  /\ ExampleC.main TestExampleC.database_id_exists ["./example"; "3000"] []
     = ([Stdout ("ID is acceptable: 1" ++ Libc.newline)%string], Returned 0)
  /\ ExampleC.main TestExampleC.database_id_exists ["./example"] []
     = ([Stderr ("Usage: " ++ Libc.basename "./example" ++ " <id>"
                 ++ Libc.newline)%string],
        Returned 1).
Proof.
  split; [reflexivity | ].
  apply (main_cli_scenario TestExampleC.database_id_exists "./example" [] []).
  reflexivity.
Defined.

Lemma main_negative_argument_minus_3000 :
  Libc.atoi "-3000" < 0
  /\ TestExampleC.database_id_exists (Libc.atoi "-3000" mod 2 ^ 32) []
     = ([], Returned false)
  /\ ExampleC.main TestExampleC.database_id_exists ["example"; "-3000"] []
     = ([Stdout ("ID is acceptable: 0" ++ Libc.newline)%string], Returned 0).
Proof.
  assert (Hneg : Libc.atoi "-3000" < 0) by reflexivity.
  split; [exact Hneg | ]. split; [reflexivity | ].
  apply (main_negative_argument
           TestExampleC.database_id_exists "example" "-3000" [] [] []
           Hneg).
  reflexivity.
Defined.

(** * Further properties of the code *)

(** ** The acceptance predicate, read backwards *)

(** An identifier is accepted exactly when the lookup has returned false
    for it and it lies strictly between 1000 and 10000: an accepted
    identifier is never one the lookup reported, and never out of range. *)
Theorem is_acceptable_id_true_iff db id t t' :
  ExampleC.is_acceptable_id db id t = (t', Returned true)
  <-> db id t = (t', Returned false) /\ 1000 < id < 10000.
Proof.
  split.
  - intros H. destruct (is_acceptable_id_Returned_inv db id t t' true H)
      as [e He].
    rewrite (is_acceptable_id_Returned db id t t' e He) in H.
    destruct e; [discriminate H | ].
    split; [exact He | ].
    injection H as H. apply andb_true_iff in H. rewrite !Z.ltb_lt in H.
    exact H.
  - intros [He Hrange].
    rewrite (is_acceptable_id_Returned db id t t' false He).
    destruct (Z.ltb_spec 1000 id), (Z.ltb_spec id 10000);
      try reflexivity; lia.
Qed.

(** A lookup that does not return takes [is_acceptable_id] and the entry
    point down with it: the run ends as the lookup ended, in the state the
    lookup left, and no verdict is written. *)
Theorem lookup_failure_propagates db argv0 arg rest t t' :
  (db (CInt.to_uint (Libc.atoi arg)) t = (t', Aborted) ->
   ExampleC.is_acceptable_id db (CInt.to_uint (Libc.atoi arg)) t
   = (t', Aborted)
   /\ ExampleC.main db (argv0 :: arg :: rest) t = (t', Aborted))
  /\ (db (CInt.to_uint (Libc.atoi arg)) t = (t', Undefined) ->
      ExampleC.is_acceptable_id db (CInt.to_uint (Libc.atoi arg)) t
      = (t', Undefined)
      /\ ExampleC.main db (argv0 :: arg :: rest) t = (t', Undefined)).
Proof.
  split; intros H.
  - assert (Hp : ExampleC.is_acceptable_id db (CInt.to_uint (Libc.atoi arg)) t
                 = (t', Aborted))
      by (apply bind_Aborted; exact H).
    split; [exact Hp | ].
    unfold ExampleC.main. rewrite argc_two_or_more.
    apply bind_Aborted. exact Hp.
  - assert (Hp : ExampleC.is_acceptable_id db (CInt.to_uint (Libc.atoi arg)) t
                 = (t', Undefined))
      by (apply bind_Undefined; exact H).
    split; [exact Hp | ].
    unfold ExampleC.main. rewrite argc_two_or_more.
    apply bind_Undefined. exact Hp.
Qed.

(** ** The entry point *)

(** The shape of every run of the entry point that returns. *)
Lemma main_Returned_inv db argv t t' v :
  ExampleC.main db argv t = (t', Returned v) ->
  (exists argv0, argv = [argv0] /\ v = 1
                 /\ t' = t ++ [Stderr (usage argv0)])
  \/ (exists argv0 arg rest t1 e digit,
         argv = argv0 :: arg :: rest /\ v = 0
         /\ db (CInt.to_uint (Libc.atoi arg)) t = (t1, Returned e)
         /\ (digit = "0" \/ digit = "1")
         /\ t' = t1 ++ [Stdout (verdict digit)]).
Proof.
  destruct argv as [ | argv0 [ | arg rest]]; intros H.
  - discriminate H.
  - left. exists argv0. rewrite main_usage in H.
    injection H as Ht Hv. subst. repeat split.
  - right. pose proof H as H0.
    unfold ExampleC.main in H0. rewrite argc_two_or_more in H0.
    cbv zeta in H0. change (nth 1 (argv0 :: arg :: rest) "") with arg in H0.
    destruct (bind_Returned_inv _ _ _ _ _ H0) as (t1 & r & Hr & _).
    destruct (is_acceptable_id_Returned_inv db _ t t1 r Hr) as [e He].
    rewrite (main_verdict db argv0 arg rest t t1 e He) in H.
    injection H as Ht Hv.
    eexists argv0, arg, rest, t1, e, _.
    split; [reflexivity | ]. split; [symmetry; exact Hv | ].
    split; [exact He | ]. split; [ | symmetry; exact Ht].
    destruct (if e then false else _); [right | left]; reflexivity.
Qed.

(** The exit status tells whether an identifier was given: whenever the
    entry point returns, its status is 1 if [argv] holds the program name
    alone and 0 if it holds at least one argument; no other status is ever
    returned, and with an empty [argv] it does not return. *)
Theorem main_status_iff_argc db argv t t' v :
  ExampleC.main db argv t = (t', Returned v) ->
  (v = 0 \/ v = 1)
  /\ (v = 1 <-> List.length argv = 1%nat)
  /\ (v = 0 <-> (2 <= List.length argv)%nat).
Proof.
  intros H.
  destruct (main_Returned_inv db argv t t' v H)
    as [(argv0 & -> & -> & _) | (argv0 & arg & rest & t1 & e & d & -> & -> & _)].
  - split; [right; reflexivity | ]. split; split; intros H1;
      try reflexivity; try discriminate H1. simpl in H1. lia.
  - split; [left; reflexivity | ]. split; split; intros H1;
      try reflexivity; try discriminate H1. simpl. lia.
Qed.

(** A run of the entry point that returns has written exactly one line
    after whatever the lookup wrote: the usage line on stderr when the
    status is 1, a verdict on stdout when it is 0. *)
Theorem main_writes_one_line db argv t t' v :
  ExampleC.main db argv t = (t', Returned v) ->
  (v = 1 /\ t' = t ++ [Stderr (usage (nth 0 argv ""))])
  \/ (v = 0 /\ exists t1 digit,
        fst (db (CInt.to_uint (Libc.atoi (nth 1 argv ""))) t) = t1
        /\ (digit = "0" \/ digit = "1")
        /\ t' = t1 ++ [Stdout (verdict digit)]).
Proof.
  intros H.
  destruct (main_Returned_inv db argv t t' v H)
    as [(argv0 & -> & -> & Ht)
       | (argv0 & arg & rest & t1 & e & d & -> & -> & He & Hd & Ht)].
  - left. split; [reflexivity | exact Ht].
  - right. split; [reflexivity | ]. exists t1, d.
    change (nth 1 (argv0 :: arg :: rest) "") with arg. rewrite He.
    repeat split; assumption.
Qed.

(** Only the first argument counts: the arguments after it and the program
    name do not change the run. *)
Theorem main_ignores_other_arguments db argv0 argv0' arg rest t :
  ExampleC.main db (argv0 :: arg :: rest) t
  = ExampleC.main db [argv0'; arg] t.
Proof.
  unfold ExampleC.main. rewrite !argc_two_or_more. reflexivity.
Qed.

(** The range test gives the same answer on an [int] and on its conversion
    to [unsigned int]: a negative value converts to one above the range. *)
Lemma range_test_to_uint z :
  CInt.is_int z ->
  (1000 <? CInt.to_uint z) && (CInt.to_uint z <? 10000)
  = (1000 <? z) && (z <? 10000).
Proof.
  intros Hz. destruct (Z.lt_ge_cases z 0) as [Hneg | Hpos].
  - rewrite (to_uint_negative z Hz Hneg).
    unfold CInt.is_int, CInt.INT_MIN in Hz.
    destruct (Z.ltb_spec (z + 2 ^ 32) 10000); [lia | ].
    destruct (Z.ltb_spec 1000 z); [lia | ].
    rewrite andb_false_r. reflexivity.
  - rewrite to_uint_of_uint; [reflexivity | ].
    unfold CInt.is_int, CInt.INT_MAX in Hz. unfold CInt.is_uint, CInt.UINT_MAX.
    lia.
Qed.

(** What the command line decides: once the lookup has returned [e] for
    the identifier, the entry point exits with status 0 after writing
    "ID is acceptable: 1" exactly when [e] is false and the number parsed
    from the argument, as a signed [int], lies strictly between 1000 and
    10000, and "ID is acceptable: 0" otherwise; the conversion to
    [unsigned int] never turns a rejected number into an accepted one. *)
Theorem main_accepts_iff db argv0 arg rest t t' e :
  db (CInt.to_uint (Libc.atoi arg)) t = (t', Returned e) ->
  exists digit,
    ExampleC.main db (argv0 :: arg :: rest) t
    = (t' ++ [Stdout ("ID is acceptable: " ++ digit ++ Libc.newline)%string],
       Returned 0)
    /\ (digit = "0" \/ digit = "1")
    /\ (digit = "1" <-> e = false /\ 1000 < Libc.atoi arg < 10000).
Proof.
  intros H. eexists. split; [apply (main_verdict db argv0 arg rest t t' e H) | ].
  rewrite (range_test_to_uint _ (atoi_is_int arg)).
  destruct e.
  - split; [left; reflexivity | ]. split; [discriminate | ].
    intros [He _]. discriminate He.
  - destruct (Z.ltb_spec 1000 (Libc.atoi arg)),
             (Z.ltb_spec (Libc.atoi arg) 10000); simpl;
      (split; [auto | ]); split; try discriminate; try (intros [_ Hr]; lia);
      intros _; split; [reflexivity | lia].
Qed.

(** ** The test program and the function nobody calls *)

(** The test program passes from any state and with any arguments: each of
    the five assertions of [test_id] holds, so nothing is written, nothing
    aborts, and [main] returns 0. *)
Theorem test_program_passes argv t :
  TestExampleC.test_id t = (t, Returned tt)
  /\ TestExampleC.main argv t = (t, Returned 0).
Proof. split; reflexivity. Qed.

(** In the executable built with otherfile.c a call of [some_function]
    never returns: it writes its own line, then the line of
    [function_somewhere_else], in that order, and the process aborts. *)
Theorem some_function_aborts (argument : Z) (t : trace) :
  ExampleC.some_function OtherfileC.function_somewhere_else argument t
  = (t ++ [Stdout (not_supposed_to_be_called "some_function");
           Stdout (not_supposed_to_be_called "function_somewhere_else")],
     Aborted).
Proof.
  unfold ExampleC.some_function, OtherfileC.function_somewhere_else,
    bind, printf, emit, abort.
  rewrite <- app_assoc. reflexivity.
Qed.

(** ** What the entry point reads from its argument *)

Lemma read_digits_step c k r acc :
  Libc.digit_value c = Some k ->
  Libc.read_digits acc (String c r) = Libc.read_digits (10 * acc + k) r.
Proof. intros H. simpl. rewrite H. reflexivity. Qed.

Lemma read_digits_of_uint_acc d p :
  Libc.read_digits (Zpos p) (NilEmpty.string_of_uint d)
  = Zpos (Pos.of_uint_acc d p).
Proof.
  revert p.
  induction d; intros p; cbn [NilEmpty.string_of_uint Pos.of_uint_acc];
    [reflexivity | ..];
    erewrite read_digits_step by (vm_compute; reflexivity);
    rewrite <- IHd; f_equal; lia.
Qed.

Lemma read_digits_of_uint d :
  Libc.read_digits 0 (NilEmpty.string_of_uint d) = Z.of_N (Pos.of_uint d).
Proof.
  induction d; cbn [NilEmpty.string_of_uint Pos.of_uint];
    [reflexivity | ..];
    erewrite read_digits_step by (vm_compute; reflexivity);
    [exact IHd | ..];
    cbn [Z.of_N]; rewrite <- read_digits_of_uint_acc; f_equal.
Qed.

(** The decimal numeral of a positive number reads back as the number. *)
Lemma read_digits_to_uint p :
  Libc.read_digits 0 (NilEmpty.string_of_uint (Pos.to_uint p)) = Zpos p.
Proof.
  rewrite read_digits_of_uint, DecimalPos.Unsigned.of_to. reflexivity.
Qed.

Lemma format_d_pos p :
  Libc.format_d (Zpos p) = NilEmpty.string_of_uint (Pos.to_uint p).
Proof.
  unfold Libc.format_d. cbn [Z.to_int NilZero.string_of_int].
  unfold NilZero.string_of_uint.
  pose proof (DecimalPos.Unsigned.to_uint_nonnil p) as Hn.
  destruct (Pos.to_uint p); [contradiction Hn; reflexivity | reflexivity ..].
Qed.

Lemma format_d_neg p :
  Libc.format_d (Zneg p)
  = String "-" (NilEmpty.string_of_uint (Pos.to_uint p)).
Proof.
  unfold Libc.format_d. cbn [Z.to_int NilZero.string_of_int].
  unfold NilZero.string_of_uint.
  pose proof (DecimalPos.Unsigned.to_uint_nonnil p) as Hn.
  destruct (Pos.to_uint p); [contradiction Hn; reflexivity | reflexivity ..].
Qed.

(** A string that begins with a digit is read from its first character. *)
Lemma strtol_starts_with_digit s :
  starts_with_digit s = true ->
  Libc.strtol s
  = Libc.clamp CInt.LONG_MIN CInt.LONG_MAX (Libc.read_digits 0 s).
Proof.
  destruct s as [ | c r]; [discriminate | ].
  unfold starts_with_digit, Libc.digit_value, Libc.strtol.
  cbn [Libc.skip_spaces]. unfold Libc.isspace.
  destruct c as [[|] [|] [|] [|] [|] [|] [|] [|]]; vm_compute nat_of_ascii;
    cbn; try discriminate; reflexivity.
Qed.

(** [atoi] reads back what [%d] prints, for every [int]. *)
Lemma atoi_format_d n : CInt.is_int n -> Libc.atoi (Libc.format_d n) = n.
Proof.
  unfold CInt.is_int, CInt.INT_MIN, CInt.INT_MAX. intros Hn.
  assert (Hs : Libc.strtol (Libc.format_d n) = n).
  { destruct n as [ | p | p].
    - reflexivity.
    - rewrite format_d_pos, strtol_starts_with_digit.
      + rewrite read_digits_to_uint.
        unfold Libc.clamp, CInt.LONG_MIN, CInt.LONG_MAX. lia.
      + pose proof (DecimalPos.Unsigned.to_uint_nonnil p) as Hnil.
        destruct (Pos.to_uint p);
          [contradiction Hnil; reflexivity | reflexivity ..].
    - rewrite format_d_neg. unfold Libc.strtol.
      change (Libc.skip_spaces
                (String "-" (NilEmpty.string_of_uint (Pos.to_uint p))))
        with (String "-" (NilEmpty.string_of_uint (Pos.to_uint p))).
      cbv iota beta. rewrite read_digits_to_uint.
      unfold Libc.clamp, CInt.LONG_MIN, CInt.LONG_MAX. lia. }
  unfold Libc.atoi. rewrite Hs. unfold CInt.to_int.
  rewrite Z.mod_small by lia. lia.
Qed.

(** A string without a number reads as 0. *)
Lemma atoi_without_number s : has_number s = false -> Libc.atoi s = 0.
Proof.
  assert (Hd : forall r, starts_with_digit r = false ->
                         Libc.read_digits 0 r = 0).
  { intros [ | c r]; [reflexivity | ]. unfold starts_with_digit.
    cbn [Libc.read_digits]. destruct (Libc.digit_value c);
      [discriminate | reflexivity]. }
  unfold has_number, Libc.atoi, Libc.strtol. intros H.
  destruct (Libc.skip_spaces s) as [ | c r].
  - reflexivity.
  - destruct c as [[|] [|] [|] [|] [|] [|] [|] [|]];
      rewrite (Hd _ H); reflexivity.
Qed.

(** The verdict in terms of the number parsed, as a signed [int]. *)
Lemma main_verdict_signed db argv0 arg rest t t' e :
  db (CInt.to_uint (Libc.atoi arg)) t = (t', Returned e) ->
  ExampleC.main db (argv0 :: arg :: rest) t
  = (t' ++ [Stdout (verdict
                      (if (if e then false
                           else (1000 <? Libc.atoi arg)
                                && (Libc.atoi arg <? 10000))
                       then "1" else "0"))],
     Returned 0).
Proof.
  intros H. rewrite (main_verdict db argv0 arg rest t t' e H).
  rewrite (range_test_to_uint _ (atoi_is_int arg)). reflexivity.
Qed.

(** The digit written for a lookup answer [e] and a parsed number [n]. *)
Lemma verdict_digit_spec (e : bool) (n : Z) :
  let digit := if (if e then false else (1000 <? n) && (n <? 10000))
               then "1" else "0" in
  (digit = "0" \/ digit = "1")
  /\ (digit = "1" <-> e = false /\ 1000 < n < 10000).
Proof.
  destruct e; cbv zeta.
  - split; [left; reflexivity | ]. split; [discriminate | ].
    intros [He _]. discriminate He.
  - destruct (Z.ltb_spec 1000 n), (Z.ltb_spec n 10000); simpl;
      (split; [auto | ]); split; try discriminate; try (intros [_ Hr]; lia);
      intros _; split; [reflexivity | lia].
Qed.

(** The identifier the user writes is the identifier that is judged: for
    every [int] n, run on the decimal numeral of n (as [%d] prints it) the
    entry point consults the lookup at n converted to [unsigned int] and,
    when the lookup returns [e], writes "ID is acceptable: 1" exactly when
    [e] is false and 1000 < n < 10000, "ID is acceptable: 0" otherwise, and
    exits with status 0. *)
Theorem main_decimal_argument db argv0 rest n t t' e :
  CInt.is_int n ->
  db (CInt.to_uint n) t = (t', Returned e) ->
  Libc.atoi (Libc.format_d n) = n
  /\ exists digit,
       ExampleC.main db (argv0 :: Libc.format_d n :: rest) t
       = (t' ++ [Stdout ("ID is acceptable: " ++ digit
                         ++ Libc.newline)%string],
          Returned 0)
       /\ (digit = "0" \/ digit = "1")
       /\ (digit = "1" <-> e = false /\ 1000 < n < 10000).
Proof.
  intros Hn He. pose proof (atoi_format_d n Hn) as Ha.
  split; [exact Ha | ]. eexists. split.
  - apply main_verdict_signed. rewrite Ha. exact He.
  - rewrite Ha. apply verdict_digit_spec.
Qed.

(** An argument that holds no number is not an error: it is taken for the
    identifier 0, and as soon as the lookup returns for 0, whatever it
    answers, the entry point writes "ID is acceptable: 0" and exits with
    status 0. *)
Theorem main_argument_without_number db argv0 arg rest t t' e :
  has_number arg = false ->
  db 0 t = (t', Returned e) ->
  ExampleC.main db (argv0 :: arg :: rest) t
  = (t' ++ [Stdout ("ID is acceptable: 0" ++ Libc.newline)%string],
     Returned 0).
Proof.
  intros Hnum He. pose proof (atoi_without_number arg Hnum) as Ha.
  rewrite (main_verdict_signed db argv0 arg rest t t' e).
  - rewrite Ha. destruct e; reflexivity.
  - rewrite Ha. exact He.
Qed.

(** ** The program name in the usage line *)

(** [strrchr] finds nothing exactly in the strings without the character. *)
Lemma strrchr_None_iff s c :
  Libc.strrchr s c = None <-> ~ In c (list_ascii_of_string s).
Proof.
  induction s as [ | a r IH]; simpl.
  - split; [intros _ [] | reflexivity].
  - destruct (Libc.strrchr r c) as [q | ].
    + split; [discriminate | ]. intros Hnot. exfalso.
      destruct IH as [_ IH].
      assert (Hr : ~ In c (list_ascii_of_string r)) by tauto.
      specialize (IH Hr). discriminate IH.
    + destruct (Ascii.eqb_spec a c) as [-> | Hne].
      * split; [discriminate | ]. intros Hnot. exfalso. apply Hnot.
        left. reflexivity.
      * split; [ | reflexivity]. intros _ [Heq | Hin]; [exact (Hne Heq) | ].
        destruct IH as [IH _]. exact (IH eq_refl Hin).
Qed.

(** What [strrchr] finds starts at an occurrence with none after it. *)
Lemma strrchr_Some s c q :
  Libc.strrchr s c = Some q ->
  exists p, q = String c p /\ Libc.strrchr p c = None.
Proof.
  induction s as [ | a r IH]; simpl; [discriminate | ].
  destruct (Libc.strrchr r c) as [q' | ] eqn:Hr.
  - intros H. injection H as <-. apply IH. reflexivity.
  - destruct (Ascii.eqb_spec a c) as [-> | Hne]; [ | discriminate].
    intros H. injection H as <-. exists r. split; [reflexivity | exact Hr].
Qed.

Lemma strrchr_last_occurrence dir p c :
  Libc.strrchr p c = None ->
  Libc.strrchr (dir ++ String c p) c = Some (String c p).
Proof.
  intros Hp. induction dir as [ | a r IH]; simpl.
  - rewrite Hp, Ascii.eqb_refl. reflexivity.
  - simpl in IH. rewrite IH. reflexivity.
Qed.

(** The usage line names the program without its directory: for a name
    without a slash, the entry point started as [name] or as
    [dir/name] writes "Usage: name <id>" to stderr and exits with status 1
    (with [argv[0]] ending in a slash, the name shown is empty); and the
    name it shows never has a slash in it. *)
Theorem main_usage_names_program db dir name argv0 t :
  (~ In "/"%char (list_ascii_of_string name) ->
   ExampleC.main db [name] t
   = (t ++ [Stderr ("Usage: " ++ name ++ " <id>" ++ Libc.newline)%string],
      Returned 1)
   /\ ExampleC.main db [(dir ++ "/" ++ name)%string] t
      = (t ++ [Stderr ("Usage: " ++ name ++ " <id>" ++ Libc.newline)%string],
         Returned 1))
  /\ (exists shown,
        ExampleC.main db [argv0] t
        = (t ++ [Stderr ("Usage: " ++ shown ++ " <id>"
                         ++ Libc.newline)%string],
           Returned 1)
        /\ ~ In "/"%char (list_ascii_of_string shown)).
Proof.
  split.
  - intros Hname. apply strrchr_None_iff in Hname.
    rewrite !main_usage. unfold usage, Libc.basename.
    rewrite Hname.
    change (dir ++ "/" ++ name)%string with (dir ++ String "/" name)%string.
    rewrite (strrchr_last_occurrence dir name "/" Hname).
    split; reflexivity.
  - exists (Libc.basename argv0). split; [reflexivity | ].
    unfold Libc.basename.
    destruct (Libc.strrchr argv0 "/") as [q | ] eqn:Hq.
    + destruct (strrchr_Some _ _ _ Hq) as (p & -> & Hp).
      apply strrchr_None_iff. exact Hp.
    + apply strrchr_None_iff. exact Hq.
Qed.

(** ** Instances of the further properties *)

Lemma is_acceptable_id_true_iff_5000 :
  ExampleC.is_acceptable_id TestExampleC.database_id_exists 5000 []
  = ([], Returned true).
Proof.
  apply (proj2 (is_acceptable_id_true_iff
                  TestExampleC.database_id_exists 5000 [] [])).
  split; [reflexivity | lia].
Defined.

Lemma lookup_failure_propagates_production :
  OtherfileC.database_id_exists (CInt.to_uint (Libc.atoi "3000")) []
  = ([Stdout (not_supposed_to_be_called "database_id_exists")], Aborted)
  /\ ExampleC.is_acceptable_id OtherfileC.database_id_exists
       (CInt.to_uint (Libc.atoi "3000")) []
     = ([Stdout (not_supposed_to_be_called "database_id_exists")], Aborted)
  /\ ExampleC.main OtherfileC.database_id_exists ["example"; "3000"] []
     = ([Stdout (not_supposed_to_be_called "database_id_exists")], Aborted).
Proof.
  split; [reflexivity | ].
  apply (proj1 (lookup_failure_propagates
                  OtherfileC.database_id_exists "example" "3000" [] []
                  [Stdout (not_supposed_to_be_called "database_id_exists")])).
  reflexivity.
Defined.

Lemma main_status_iff_argc_3000 :
  ExampleC.main TestExampleC.database_id_exists ["example"; "3000"] []
  = ([Stdout (verdict "1")], Returned 0)
  /\ (0 = 0 \/ 0 = 1)
  /\ (0 = 1 <-> List.length ["example"; "3000"] = 1%nat)
  /\ (0 = 0 <-> (2 <= List.length ["example"; "3000"])%nat).
Proof.
  split; [reflexivity | ].
  apply (main_status_iff_argc TestExampleC.database_id_exists
           ["example"; "3000"] [] [Stdout (verdict "1")] 0).
  reflexivity.
Defined.

Lemma main_writes_one_line_usage :
  ExampleC.main TestExampleC.database_id_exists ["example"] []
  = ([Stderr (usage "example")], Returned 1)
  /\ ((1 = 1 /\ [Stderr (usage "example")]
                = [] ++ [Stderr (usage (nth 0 ["example"] ""))])
      \/ (1 = 0 /\ exists t1 digit,
            fst (TestExampleC.database_id_exists
                   (CInt.to_uint (Libc.atoi (nth 1 ["example"] ""))) [])
            = t1
            /\ (digit = "0" \/ digit = "1")
            /\ [Stderr (usage "example")] = t1 ++ [Stdout (verdict digit)])).
Proof.
  split; [reflexivity | ].
  apply (main_writes_one_line TestExampleC.database_id_exists
           ["example"] [] [Stderr (usage "example")] 1).
  reflexivity.
Defined.

Lemma main_accepts_iff_3000 :
  TestExampleC.database_id_exists (CInt.to_uint (Libc.atoi "3000")) []
  = ([], Returned false)
  /\ exists digit,
       ExampleC.main TestExampleC.database_id_exists ["example"; "3000"] []
       = ([] ++ [Stdout ("ID is acceptable: " ++ digit
                         ++ Libc.newline)%string],
          Returned 0)
       /\ (digit = "0" \/ digit = "1")
       /\ (digit = "1" <-> false = false /\ 1000 < Libc.atoi "3000" < 10000).
Proof.
  split; [reflexivity | ].
  apply (main_accepts_iff TestExampleC.database_id_exists
           "example" "3000" [] [] [] false).
  reflexivity.
Defined.

Lemma main_decimal_argument_minus_7 :
  CInt.is_int (-7)
  /\ TestExampleC.database_id_exists (CInt.to_uint (-7)) []
     = ([], Returned false)
  /\ Libc.atoi (Libc.format_d (-7)) = -7
  /\ exists digit,
       ExampleC.main TestExampleC.database_id_exists
         ["example"; Libc.format_d (-7)] []
       = ([] ++ [Stdout ("ID is acceptable: " ++ digit
                         ++ Libc.newline)%string],
          Returned 0)
       /\ (digit = "0" \/ digit = "1")
       /\ (digit = "1" <-> false = false /\ 1000 < -7 < 10000).
Proof.
  assert (Hn : CInt.is_int (-7))
    by (unfold CInt.is_int, CInt.INT_MIN, CInt.INT_MAX; lia).
  split; [exact Hn | ]. split; [reflexivity | ].
  apply (main_decimal_argument TestExampleC.database_id_exists
           "example" [] (-7) [] [] false Hn).
  reflexivity.
Defined.

Lemma main_argument_without_number_abc :
  has_number "abc" = false
  /\ TestExampleC.database_id_exists 0 [] = ([], Returned false)
  /\ ExampleC.main TestExampleC.database_id_exists ["example"; "abc"] []
     = ([] ++ [Stdout ("ID is acceptable: 0" ++ Libc.newline)%string],
        Returned 0).
Proof.
  split; [reflexivity | ]. split; [reflexivity | ].
  apply (main_argument_without_number TestExampleC.database_id_exists
           "example" "abc" [] [] [] false); reflexivity.
Defined.

Lemma main_usage_names_program_usr_bin :
  ~ In "/"%char (list_ascii_of_string "example")
  /\ ExampleC.main TestExampleC.database_id_exists ["/usr/bin/example"] []
     = ([Stderr ("Usage: example <id>" ++ Libc.newline)%string], Returned 1).
Proof.
  assert (Hname : ~ In "/"%char (list_ascii_of_string "example")).
  { simpl. intros H. repeat (destruct H as [H | H]; [discriminate H | ]).
    exact H. }
  split; [exact Hname | ].
  apply (proj2 (proj1 (main_usage_names_program
                         TestExampleC.database_id_exists
                         "/usr/bin" "example" "" [])
                  Hname)).
Defined.
